(** * Verification of the Beeswax log ingestion engine of AdVantage

    Shallow embedding of [ParseBeeswaxLog] (backend ingestion package) and of
    the result store of [LogProcessorService] ([storeAnalysisResult],
    [GetAnalysisResult], [IsLogFileProcessed]).

    Modelling conventions:
    - a Go [int] / [int64] is a [Z] with its 64-bit wrap-around written out;
    - a Go [float64] is a Rocq primitive float (IEEE-754 binary64);
    - a Go [time.Time] is its absolute instant, in nanoseconds since
      0001-01-01 00:00:00 UTC (Go's zero [Time]), all times here being UTC;
    - a Go [map[string]T] is a stdpp [gmap string T];
    - the CSV input is the list of records the [encoding/csv] lexer yields;
      the record-length check of [csv.Reader.Read] is modelled explicitly. *)

From Stdlib Require Import ZArith Ascii String List Bool Lia.
From Stdlib Require Import Floats.
From stdpp Require Import base gmap strings list fin_maps.

Import ListNotations.
Open Scope Z_scope.

(** ** Results of fallible Go functions ([T, error]) *)

Inductive result (A : Type) : Type :=
| Ok (a : A)
| Err (msg : string).
Arguments Ok {A} a.
Arguments Err {A} msg.

(** ** Go integers *)

(** Signed 64-bit wrap-around of Go's [int] and [int64]. *)
Definition wrap64 (z : Z) : Z := (z + 2 ^ 63) mod 2 ^ 64 - 2 ^ 63.

Definition add64 (a b : Z) : Z := wrap64 (a + b).

(** ** [strconv.ParseInt(s, 10, 64)] and [strconv.Atoi] *)

Inductive num_error := ErrSyntax | ErrRange.

Definition is_digit (c : ascii) : bool :=
  (48 <=? nat_of_ascii c)%nat && (nat_of_ascii c <=? 57)%nat.

Definition digit_val (c : ascii) : Z := Z.of_nat (nat_of_ascii c) - 48.

Definition max_uint64 : Z := 2 ^ 64 - 1.

(** [cutoff] of [ParseUint] for base 10: the smallest [n] with [n*10]
    overflowing. *)
Definition cutoff10 : Z := max_uint64 / 10 + 1.

(** The digit loop of [ParseUint]: any non-digit is a syntax error (letters
    give a digit value at least 10, rejected for base 10); an overflow returns
    [maxVal] with [ErrRange] at once, before the rest is looked at. *)
Fixpoint parse_uint_loop (cs : list ascii) (n : Z) : Z * option num_error :=
  match cs with
  | [] => (n, None)
  | c :: rest =>
      if negb (is_digit c) then (0, Some ErrSyntax)
      else if cutoff10 <=? n then (max_uint64, Some ErrRange)
      else
        let n1 := n * 10 + digit_val c in
        if max_uint64 <? n1 then (max_uint64, Some ErrRange)
        else parse_uint_loop rest n1
  end.

Definition parse_uint (cs : list ascii) : Z * option num_error :=
  match cs with
  | [] => (0, Some ErrSyntax)
  | _ => parse_uint_loop cs 0
  end.

(** [strconv.ParseInt(s, 10, 64)]: a syntax error yields 0, a range error
    yields the clamped bound [MaxInt64] / [MinInt64]. *)
Definition ParseInt (s : string) : Z * option num_error :=
  let cs := list_ascii_of_string s in
  match cs with
  | [] => (0, Some ErrSyntax)
  | c :: rest =>
      let '(neg, body) :=
        if Ascii.eqb c "+"%char then (false, rest)
        else if Ascii.eqb c "-"%char then (true, rest)
        else (false, cs) in
      let '(un, err) := parse_uint body in
      match err with
      | Some ErrSyntax => (0, Some ErrSyntax)
      | _ =>
          let cutoff := 2 ^ 63 in
          if negb neg && (cutoff <=? un) then (cutoff - 1, Some ErrRange)
          else if neg && (cutoff <? un) then (- cutoff, Some ErrRange)
          else ((if neg then - un else un), None)
      end
  end.

(** [strconv.Atoi] on a 64-bit platform: its fast path for short strings
    agrees with [ParseInt(s, 10, 0)], to which it otherwise delegates. *)
Definition Atoi (s : string) : Z * option num_error := ParseInt s.

(** ** Go [float64] *)

(** [float64(z)] for an integer [z]: round to nearest, ties to even. *)
Definition float_of_Z (z : Z) : float :=
  SF2Prim (binary_normalize FloatOps.prec FloatOps.emax z 0 false).

Definition fzero : float := float_of_Z 0.
Definition fmillion : float := float_of_Z 1000000.
Definition fhundred : float := float_of_Z 100.

(** ** Go [time.Time] *)

(** A [time.Time] is represented by its instant: nanoseconds since
    0001-01-01 00:00:00 UTC, so that [Time{}] is [0]. *)
Definition time := Z.

Definition ns_per_sec : Z := 1000000000.
Definition ns_per_day : Z := 86400 * ns_per_sec.

(** Days from 1970-01-01 to a date of the proleptic Gregorian calendar. *)
Definition days_from_civil (y m d : Z) : Z :=
  let y' := if m <=? 2 then y - 1 else y in
  let era := y' / 400 in
  let yoe := y' - era * 400 in
  let mp := (m + 9) mod 12 in
  let doy := (153 * mp + 2) / 5 + d - 1 in
  let doe := yoe * 365 + yoe / 4 - yoe / 100 + doy in
  era * 146097 + doe - 719468.

(** The inverse: (year, month, day) of a day number counted from
    1970-01-01. *)
Definition civil_from_days (z : Z) : Z * Z * Z :=
  let z := z + 719468 in
  let era := z / 146097 in
  let doe := z - era * 146097 in
  let yoe := (doe - doe / 1460 + doe / 36524 - doe / 146096) / 365 in
  let doy := doe - (365 * yoe + yoe / 4 - yoe / 100) in
  let mp := (5 * doy + 2) / 153 in
  let d := doy - (153 * mp + 2) / 5 + 1 in
  let m := if mp <? 10 then mp + 3 else mp - 9 in
  let y := yoe + era * 400 in
  (if m <=? 2 then y + 1 else y, m, d).

(** Days from 0001-01-01 to 1970-01-01. *)
Definition unix_epoch_days : Z := 719162.

(** [time.Date(y, m, d, hh, mm, ss, ns, time.UTC)] for in-range fields. *)
Definition Date (y m d hh mm ss ns : Z) : time :=
  (days_from_civil y m d + unix_epoch_days) * ns_per_day
  + ((hh * 60 + mm) * 60 + ss) * ns_per_sec + ns.

Definition IsZero (t : time) : bool := t =? 0.
Definition Before (t u : time) : bool := t <? u.
Definition After (t u : time) : bool := u <? t.

Definition is_leap (y : Z) : bool :=
  (y mod 4 =? 0) && (negb (y mod 100 =? 0) || (y mod 400 =? 0)).

(** [daysIn(month, year)]. *)
Definition days_in (m y : Z) : Z :=
  if m =? 2 then (if is_leap y then 29 else 28)
  else if (m =? 4) || (m =? 6) || (m =? 9) || (m =? 11) then 30
  else 31.

(** *** [time.Parse] for the two layouts used by the decoder *)

(** [getnum(value, fixed)]: one or two digits, exactly two when [fixed]. *)
Definition getnum (cs : list ascii) (fixed : bool) : option (Z * list ascii) :=
  match cs with
  | c0 :: rest0 =>
      if is_digit c0 then
        match rest0 with
        | c1 :: rest1 =>
            if is_digit c1 then Some (digit_val c0 * 10 + digit_val c1, rest1)
            else if fixed then None else Some (digit_val c0, rest0)
        | [] => if fixed then None else Some (digit_val c0, rest0)
        end
      else None
  | [] => None
  end.

(** [skip] of one literal byte of the layout. *)
Definition skip_char (lit : ascii) (cs : list ascii) : option (list ascii) :=
  match cs with
  | c :: rest => if Ascii.eqb c lit then Some rest else None
  | [] => None
  end.

Fixpoint cut_spaces (cs : list ascii) : list ascii :=
  match cs with
  | c :: rest => if Ascii.eqb c " "%char then cut_spaces rest else cs
  | [] => []
  end.

(** [skip] of a space of the layout: any run of spaces of the value. *)
Definition skip_space (cs : list ascii) : option (list ascii) :=
  match cs with
  | c :: _ => if Ascii.eqb c " "%char then Some (cut_spaces cs) else None
  | [] => Some []
  end.

(** [stdLongYear]: four digits. *)
Definition get_year (cs : list ascii) : option (Z * list ascii) :=
  match cs with
  | a :: b :: c :: d :: rest =>
      if is_digit a && is_digit b && is_digit c && is_digit d then
        Some (((digit_val a * 10 + digit_val b) * 10 + digit_val c) * 10
              + digit_val d, rest)
      else None
  | _ => None
  end.

Definition comma_or_period (c : ascii) : bool :=
  Ascii.eqb c "."%char || Ascii.eqb c ","%char.

(** Leading digits of a value and the remainder. *)
Fixpoint span_digits (cs : list ascii) : list ascii * list ascii :=
  match cs with
  | c :: rest =>
      if is_digit c then let '(ds, r) := span_digits rest in (c :: ds, r)
      else ([], cs)
  | [] => ([], [])
  end.

Fixpoint digits_value (ds : list ascii) (acc : Z) : Z :=
  match ds with
  | [] => acc
  | d :: rest => digits_value rest (acc * 10 + digit_val d)
  end.

(** [parseNanoseconds(value, nbytes)] when the [nbytes - 1] bytes after the
    separator are digits: at most nine of them are read, scaled to
    nanoseconds. *)
Definition nanos_of_digits (ds : list ascii) : Z :=
  let ds := firstn 9 ds in
  digits_value ds 0 * 10 ^ (9 - Z.of_nat (length ds)).

(** The three bytes of [.000] go through Go's [atoi], which also accepts a
    sign: [+dd] is read as [dd], [-dd] is a range error unless it is [-00]. *)
Definition frac3 (a b c : ascii) : option Z :=
  if is_digit a && is_digit b && is_digit c then
    Some (((digit_val a * 10 + digit_val b) * 10 + digit_val c) * 1000000)
  else if Ascii.eqb a "+"%char && is_digit b && is_digit c then
    Some ((digit_val b * 10 + digit_val c) * 1000000)
  else if Ascii.eqb a "-"%char && is_digit b && is_digit c then
    (if (digit_val b =? 0) && (digit_val c =? 0) then Some 0 else None)
  else None.

(** The common prefix [2006-01-02 15:04:05] of both layouts, with Go's range
    checks on month, hour, minute and second. *)
Definition parse_datetime_prefix (cs : list ascii)
  : option (Z * Z * Z * Z * Z * Z * list ascii) :=
  match get_year cs with None => None | Some (y, cs) =>
  match skip_char "-"%char cs with None => None | Some cs =>
  match getnum cs true with None => None | Some (mo, cs) =>
  if (mo <=? 0) || (12 <? mo) then None else
  match skip_char "-"%char cs with None => None | Some cs =>
  match getnum cs true with None => None | Some (d, cs) =>
  match skip_space cs with None => None | Some cs =>
  match getnum cs false with None => None | Some (hh, cs) =>
  if (hh <? 0) || (24 <=? hh) then None else
  match skip_char ":"%char cs with None => None | Some cs =>
  match getnum cs true with None => None | Some (mi, cs) =>
  if (mi <? 0) || (60 <=? mi) then None else
  match skip_char ":"%char cs with None => None | Some cs =>
  match getnum cs true with None => None | Some (ss, cs) =>
  if (ss <? 0) || (60 <=? ss) then None else
  Some (y, mo, d, hh, mi, ss, cs)
  end end end end end end end end end end end.

(** Day-of-month validation done by [time.Parse] after the layout. *)
Definition finish_date (y mo d hh mi ss ns : Z) : option time :=
  if (d <? 1) || (days_in mo y <? d) then None
  else Some (Date y mo d hh mi ss ns).

(** [time.Parse("2006-01-02 15:04:05.000", s)]. *)
Definition parse_layout_millis (s : string) : option time :=
  match parse_datetime_prefix (list_ascii_of_string s) with
  | Some (y, mo, d, hh, mi, ss, sep :: a :: b :: c :: []) =>
      if comma_or_period sep then
        match frac3 a b c with
        | Some ns => finish_date y mo d hh mi ss ns
        | None => None
        end
      else None
  | _ => None
  end.

(** [time.Parse("2006-01-02 15:04:05", s)]: a fractional second right after
    the seconds is accepted although the layout has none. *)
Definition parse_layout_seconds (s : string) : option time :=
  match parse_datetime_prefix (list_ascii_of_string s) with
  | Some (y, mo, d, hh, mi, ss, []) => finish_date y mo d hh mi ss 0
  | Some (y, mo, d, hh, mi, ss, sep :: c :: rest) =>
      if comma_or_period sep && is_digit c then
        let '(ds, r) := span_digits (c :: rest) in
        match r with
        | [] => finish_date y mo d hh mi ss (nanos_of_digits ds)
        | _ => None
        end
      else None
  | _ => None
  end.

(** *** [Time.Format] *)

Fixpoint digits_rev (fuel : nat) (n : Z) : list ascii :=
  match fuel with
  | O => []
  | S f =>
      ascii_of_nat (Z.to_nat (48 + n mod 10))
      :: (if n <? 10 then [] else digits_rev f (n / 10))
  end.

(** A non-negative number in decimal, left-padded with zeros to [width]. *)
Definition pad (width : nat) (n : Z) : string :=
  let ds := rev (digits_rev 20 n) in
  string_of_list_ascii (repeat "0"%char (width - length ds) ++ ds).

Definition date_of (t : time) : Z * Z * Z :=
  civil_from_days (t / ns_per_day - unix_epoch_days).

Definition hour_of (t : time) : Z := (t mod ns_per_day) / (3600 * ns_per_sec).

(** [t.Format("2006-01-02 15")]. *)
Definition format_hour_key (t : time) : string :=
  let '(y, mo, d) := date_of t in
  pad 4 y ++ "-" ++ pad 2 mo ++ "-" ++ pad 2 d ++ " " ++ pad 2 (hour_of t).

(** ** The summary ([BeeswaxLogSummary], [CampaignMetrics]) *)

(** [CampaignMetrics]; its [CTR] field is named [CampaignCTR] here, the
    summary having a [CTR] field of its own. *)
Record CampaignMetrics := mkCampaignMetrics {
  Impressions : Z;
  Clicks : Z;
  Conversions : Z;
  Spend : float;
  CampaignCTR : float
}.

(** The zero value [CampaignMetrics{}]. *)
Definition zero_campaign : CampaignMetrics :=
  mkCampaignMetrics 0 0 0 fzero fzero.

Record BeeswaxLogSummary := mkSummary {
  TotalRecords : Z;
  TotalImpressions : Z;
  TotalClicks : Z;
  TotalConversions : Z;
  TotalBidAmount : float;
  TotalWinCost : float;
  CTR : float;
  AverageBidPrice : float;
  AverageWinRate : float;
  TimeRange : time * time;
  DeviceBreakdown : gmap string Z;
  BrowserBreakdown : gmap string Z;
  OSBreakdown : gmap string Z;
  GeoBreakdown : gmap string Z;
  HourlyBreakdown : gmap string Z;
  DomainBreakdown : gmap string Z;
  CampaignPerformance : gmap string CampaignMetrics
}.

(** [m[k]++] on a [map[string]int]. *)
Definition incr (k : string) (m : gmap string Z) : gmap string Z :=
  <[k := add64 (default 0 (m !! k)) 1]> m.

(** ** Schema resolution *)

Definition required_cols : list string :=
  ["ACCOUNT_ID"; "AUCTION_ID"; "BID_PRICE_MICROS_USD"; "BID_TIME";
   "CAMPAIGN_ID"; "CLEARING_PRICE_MICROS_USD"; "CLICKS"; "CONVERSIONS";
   "CREATIVE_ID"; "DOMAIN"; "GEO_COUNTRY"; "GEO_CITY";
   "PLATFORM_DEVICE_TYPE"; "PLATFORM_BROWSER"; "PLATFORM_OS";
   "WIN_COST_MICROS_USD"].

(** *** [unicode/utf8] *)

Definition RuneError : Z := 0xFFFD.
Definition RuneSelf : Z := 0x80.
Definition MaxRune : Z := 0x10FFFF.

(** A Go string is its bytes: a Rocq [string] of 8-bit [ascii]
    characters. *)
Definition byte_val (c : ascii) : Z := Z.of_nat (nat_of_ascii c).

Definition byte_of (z : Z) : ascii := ascii_of_nat (Z.to_nat (z mod 256)).

(** [s[i]] (only read below [len(s)]). *)
Definition byte_at (s : string) (i : nat) : Z :=
  match String.get i s with
  | Some c => byte_val c
  | None => 0
  end.

(** [s[n:]]. *)
Fixpoint str_drop (n : nat) (s : string) : string :=
  match n, s with
  | O, _ => s
  | S n', String _ s' => str_drop n' s'
  | S _, EmptyString => EmptyString
  end.

(** The [first] table of [unicode/utf8]: the class of a leading byte,
    with, for a multi-byte sequence, its size and the accepted range of the
    second byte. *)
Inductive first_class : Type :=
| FirstASCII
| FirstInvalid
| FirstLead (size : nat) (lo hi : Z).

Definition locb : Z := 0x80.
Definition hicb : Z := 0xBF.

Definition first (b : Z) : first_class :=
  if b <? 0x80 then FirstASCII
  else if b <? 0xC2 then FirstInvalid
  else if b <? 0xE0 then FirstLead 2 locb hicb
  else if b =? 0xE0 then FirstLead 3 0xA0 hicb
  else if b <? 0xED then FirstLead 3 locb hicb
  else if b =? 0xED then FirstLead 3 locb 0x9F
  else if b <? 0xF0 then FirstLead 3 locb hicb
  else if b =? 0xF0 then FirstLead 4 0x90 hicb
  else if b <? 0xF4 then FirstLead 4 locb hicb
  else if b =? 0xF4 then FirstLead 4 locb 0x8F
  else FirstInvalid.

Definition out_of (lo hi b : Z) : bool := (b <? lo) || (hi <? b).

(** [utf8.DecodeRuneInString]: the first rune of [s] and its width;
    [(RuneError, 1)] on an invalid or truncated sequence, [(RuneError, 0)]
    on the empty string. *)
Definition DecodeRuneInString (s : string) : Z * nat :=
  let n := String.length s in
  if (n <? 1)%nat then (RuneError, 0%nat) else
  let s0 := byte_at s 0 in
  match first s0 with
  | FirstASCII => (s0, 1%nat)
  | FirstInvalid => (RuneError, 1%nat)
  | FirstLead sz lo hi =>
      if (n <? sz)%nat then (RuneError, 1%nat) else
      let s1 := byte_at s 1 in
      if out_of lo hi s1 then (RuneError, 1%nat) else
      if (sz <=? 2)%nat then
        (Z.lor (Z.shiftl (Z.land s0 0x1F) 6) (Z.land s1 0x3F), 2%nat) else
      let s2 := byte_at s 2 in
      if out_of locb hicb s2 then (RuneError, 1%nat) else
      if (sz <=? 3)%nat then
        (Z.lor (Z.lor (Z.shiftl (Z.land s0 0x0F) 12)
                      (Z.shiftl (Z.land s1 0x3F) 6)) (Z.land s2 0x3F),
         3%nat) else
      let s3 := byte_at s 3 in
      if out_of locb hicb s3 then (RuneError, 1%nat) else
      (Z.lor (Z.lor (Z.lor (Z.shiftl (Z.land s0 0x07) 18)
                           (Z.shiftl (Z.land s1 0x3F) 12))
                    (Z.shiftl (Z.land s2 0x3F) 6)) (Z.land s3 0x3F),
       4%nat)
  end.

(** [utf8.EncodeRune] (as [strings.Builder.WriteRune] uses it): a rune out
    of range or a surrogate is written as [RuneError]. *)
Definition encode3 (r : Z) : string :=
  String (byte_of (Z.lor 0xE0 (Z.shiftr r 12)))
    (String (byte_of (Z.lor 0x80 (Z.land (Z.shiftr r 6) 0x3F)))
      (String (byte_of (Z.lor 0x80 (Z.land r 0x3F))) EmptyString)).

Definition EncodeRune (r : Z) : string :=
  let i := r mod 2 ^ 32 in
  if i <=? 0x7F then String (byte_of r) EmptyString
  else if i <=? 0x7FF then
    String (byte_of (Z.lor 0xC0 (Z.shiftr r 6)))
      (String (byte_of (Z.lor 0x80 (Z.land r 0x3F))) EmptyString)
  else if (MaxRune <? i) || ((0xD800 <=? i) && (i <=? 0xDFFF)) then
    encode3 RuneError
  else if i <=? 0xFFFF then encode3 r
  else
    String (byte_of (Z.lor 0xF0 (Z.shiftr r 18)))
      (String (byte_of (Z.lor 0x80 (Z.land (Z.shiftr r 12) 0x3F)))
        (String (byte_of (Z.lor 0x80 (Z.land (Z.shiftr r 6) 0x3F)))
          (String (byte_of (Z.lor 0x80 (Z.land r 0x3F))) EmptyString))).

(** *** [strings.Map] *)

(** The loop of [strings.Map]: the runes of [s], as [for range] decodes
    them (an invalid byte is [RuneError] of width 1), each replaced by the
    UTF-8 encoding of [mapping] of it, or dropped when that is negative.
    Where Go copies the bytes of a valid rune that [mapping] keeps, those
    bytes are its encoding. [fuel] bounds the number of runes. *)
Fixpoint map_runes (mapping : Z -> Z) (fuel : nat) (s : string) : string :=
  match fuel with
  | O => EmptyString
  | S fuel' =>
      match s with
      | EmptyString => EmptyString
      | String _ _ =>
          let '(c, width) := DecodeRuneInString s in
          let r := mapping c in
          ((if (r <? 0)%Z then EmptyString else EncodeRune r)
           ++ map_runes mapping fuel' (str_drop width s))%string
      end
  end.

Definition Map (mapping : Z -> Z) (s : string) : string :=
  map_runes mapping (String.length s) s.

(** *** [unicode.ToUpper] *)

(** The upper-case delta of a [unicode.CaseRange]: a fixed offset, or an
    Upper-Lower alternation in which the runes at even offsets from [Lo]
    are upper case and each rune at an odd offset maps to its predecessor. *)
Inductive case_delta : Type :=
| Delta (d : Z)
| UpperLower.

Definition MaxASCII : Z := 0x7F.

(** The upper-case column of [unicode.CaseRanges] above ASCII: sorted,
    disjoint ranges [(Lo, Hi, delta)]; ranges whose upper-case delta is 0
    are left out, as [to] then returns the rune itself. Generated from the
    simple uppercase mappings (field 12 of UnicodeData.txt) of the Unicode
    Character Database 14.0.0; Unicode 15.0.0, the version of the [unicode]
    package of Go 1.23, adds no simple uppercase mapping. *)
Definition CaseRanges_upper : list (Z * Z * case_delta) :=
  [(0x00B5, 0x00B5, Delta (743)); (0x00E0, 0x00F6, Delta (-32));
   (0x00F8, 0x00FE, Delta (-32)); (0x00FF, 0x00FF, Delta (121));
   (0x0100, 0x012F, UpperLower); (0x0131, 0x0131, Delta (-232));
   (0x0132, 0x0137, UpperLower); (0x0139, 0x0148, UpperLower);
   (0x014A, 0x0177, UpperLower); (0x0179, 0x017E, UpperLower);
   (0x017F, 0x017F, Delta (-300)); (0x0180, 0x0180, Delta (195));
   (0x0182, 0x0185, UpperLower); (0x0188, 0x0188, Delta (-1));
   (0x018C, 0x018C, Delta (-1)); (0x0192, 0x0192, Delta (-1));
   (0x0195, 0x0195, Delta (97)); (0x0199, 0x0199, Delta (-1));
   (0x019A, 0x019A, Delta (163)); (0x019E, 0x019E, Delta (130));
   (0x01A0, 0x01A5, UpperLower); (0x01A8, 0x01A8, Delta (-1));
   (0x01AD, 0x01AD, Delta (-1)); (0x01B0, 0x01B0, Delta (-1));
   (0x01B3, 0x01B6, UpperLower); (0x01B9, 0x01B9, Delta (-1));
   (0x01BD, 0x01BD, Delta (-1)); (0x01BF, 0x01BF, Delta (56));
   (0x01C5, 0x01C5, Delta (-1)); (0x01C6, 0x01C6, Delta (-2));
   (0x01C8, 0x01C8, Delta (-1)); (0x01C9, 0x01C9, Delta (-2));
   (0x01CB, 0x01CB, Delta (-1)); (0x01CC, 0x01CC, Delta (-2));
   (0x01CD, 0x01DC, UpperLower); (0x01DD, 0x01DD, Delta (-79));
   (0x01DE, 0x01EF, UpperLower); (0x01F2, 0x01F2, Delta (-1));
   (0x01F3, 0x01F3, Delta (-2)); (0x01F5, 0x01F5, Delta (-1));
   (0x01F8, 0x021F, UpperLower); (0x0222, 0x0233, UpperLower);
   (0x023C, 0x023C, Delta (-1)); (0x023F, 0x0240, Delta (10815));
   (0x0242, 0x0242, Delta (-1)); (0x0246, 0x024F, UpperLower);
   (0x0250, 0x0250, Delta (10783)); (0x0251, 0x0251, Delta (10780));
   (0x0252, 0x0252, Delta (10782)); (0x0253, 0x0253, Delta (-210));
   (0x0254, 0x0254, Delta (-206)); (0x0256, 0x0257, Delta (-205));
   (0x0259, 0x0259, Delta (-202)); (0x025B, 0x025B, Delta (-203));
   (0x025C, 0x025C, Delta (42319)); (0x0260, 0x0260, Delta (-205));
   (0x0261, 0x0261, Delta (42315)); (0x0263, 0x0263, Delta (-207));
   (0x0265, 0x0265, Delta (42280)); (0x0266, 0x0266, Delta (42308));
   (0x0268, 0x0268, Delta (-209)); (0x0269, 0x0269, Delta (-211));
   (0x026A, 0x026A, Delta (42308)); (0x026B, 0x026B, Delta (10743));
   (0x026C, 0x026C, Delta (42305)); (0x026F, 0x026F, Delta (-211));
   (0x0271, 0x0271, Delta (10749)); (0x0272, 0x0272, Delta (-213));
   (0x0275, 0x0275, Delta (-214)); (0x027D, 0x027D, Delta (10727));
   (0x0280, 0x0280, Delta (-218)); (0x0282, 0x0282, Delta (42307));
   (0x0283, 0x0283, Delta (-218)); (0x0287, 0x0287, Delta (42282));
   (0x0288, 0x0288, Delta (-218)); (0x0289, 0x0289, Delta (-69));
   (0x028A, 0x028B, Delta (-217)); (0x028C, 0x028C, Delta (-71));
   (0x0292, 0x0292, Delta (-219)); (0x029D, 0x029D, Delta (42261));
   (0x029E, 0x029E, Delta (42258)); (0x0345, 0x0345, Delta (84));
   (0x0370, 0x0373, UpperLower); (0x0377, 0x0377, Delta (-1));
   (0x037B, 0x037D, Delta (130)); (0x03AC, 0x03AC, Delta (-38));
   (0x03AD, 0x03AF, Delta (-37)); (0x03B1, 0x03C1, Delta (-32));
   (0x03C2, 0x03C2, Delta (-31)); (0x03C3, 0x03CB, Delta (-32));
   (0x03CC, 0x03CC, Delta (-64)); (0x03CD, 0x03CE, Delta (-63));
   (0x03D0, 0x03D0, Delta (-62)); (0x03D1, 0x03D1, Delta (-57));
   (0x03D5, 0x03D5, Delta (-47)); (0x03D6, 0x03D6, Delta (-54));
   (0x03D7, 0x03D7, Delta (-8)); (0x03D8, 0x03EF, UpperLower);
   (0x03F0, 0x03F0, Delta (-86)); (0x03F1, 0x03F1, Delta (-80));
   (0x03F2, 0x03F2, Delta (7)); (0x03F3, 0x03F3, Delta (-116));
   (0x03F5, 0x03F5, Delta (-96)); (0x03F8, 0x03F8, Delta (-1));
   (0x03FB, 0x03FB, Delta (-1)); (0x0430, 0x044F, Delta (-32));
   (0x0450, 0x045F, Delta (-80)); (0x0460, 0x0481, UpperLower);
   (0x048A, 0x04BF, UpperLower); (0x04C1, 0x04CE, UpperLower);
   (0x04CF, 0x04CF, Delta (-15)); (0x04D0, 0x052F, UpperLower);
   (0x0561, 0x0586, Delta (-48)); (0x10D0, 0x10FA, Delta (3008));
   (0x10FD, 0x10FF, Delta (3008)); (0x13F8, 0x13FD, Delta (-8));
   (0x1C80, 0x1C80, Delta (-6254)); (0x1C81, 0x1C81, Delta (-6253));
   (0x1C82, 0x1C82, Delta (-6244)); (0x1C83, 0x1C84, Delta (-6242));
   (0x1C85, 0x1C85, Delta (-6243)); (0x1C86, 0x1C86, Delta (-6236));
   (0x1C87, 0x1C87, Delta (-6181)); (0x1C88, 0x1C88, Delta (35266));
   (0x1D79, 0x1D79, Delta (35332)); (0x1D7D, 0x1D7D, Delta (3814));
   (0x1D8E, 0x1D8E, Delta (35384)); (0x1E00, 0x1E95, UpperLower);
   (0x1E9B, 0x1E9B, Delta (-59)); (0x1EA0, 0x1EFF, UpperLower);
   (0x1F00, 0x1F07, Delta (8)); (0x1F10, 0x1F15, Delta (8));
   (0x1F20, 0x1F27, Delta (8)); (0x1F30, 0x1F37, Delta (8));
   (0x1F40, 0x1F45, Delta (8)); (0x1F51, 0x1F51, Delta (8));
   (0x1F53, 0x1F53, Delta (8)); (0x1F55, 0x1F55, Delta (8));
   (0x1F57, 0x1F57, Delta (8)); (0x1F60, 0x1F67, Delta (8));
   (0x1F70, 0x1F71, Delta (74)); (0x1F72, 0x1F75, Delta (86));
   (0x1F76, 0x1F77, Delta (100)); (0x1F78, 0x1F79, Delta (128));
   (0x1F7A, 0x1F7B, Delta (112)); (0x1F7C, 0x1F7D, Delta (126));
   (0x1F80, 0x1F87, Delta (8)); (0x1F90, 0x1F97, Delta (8));
   (0x1FA0, 0x1FA7, Delta (8)); (0x1FB0, 0x1FB1, Delta (8));
   (0x1FB3, 0x1FB3, Delta (9)); (0x1FBE, 0x1FBE, Delta (-7205));
   (0x1FC3, 0x1FC3, Delta (9)); (0x1FD0, 0x1FD1, Delta (8));
   (0x1FE0, 0x1FE1, Delta (8)); (0x1FE5, 0x1FE5, Delta (7));
   (0x1FF3, 0x1FF3, Delta (9)); (0x214E, 0x214E, Delta (-28));
   (0x2170, 0x217F, Delta (-16)); (0x2184, 0x2184, Delta (-1));
   (0x24D0, 0x24E9, Delta (-26)); (0x2C30, 0x2C5F, Delta (-48));
   (0x2C61, 0x2C61, Delta (-1)); (0x2C65, 0x2C65, Delta (-10795));
   (0x2C66, 0x2C66, Delta (-10792)); (0x2C67, 0x2C6C, UpperLower);
   (0x2C73, 0x2C73, Delta (-1)); (0x2C76, 0x2C76, Delta (-1));
   (0x2C80, 0x2CE3, UpperLower); (0x2CEB, 0x2CEE, UpperLower);
   (0x2CF3, 0x2CF3, Delta (-1)); (0x2D00, 0x2D25, Delta (-7264));
   (0x2D27, 0x2D27, Delta (-7264)); (0x2D2D, 0x2D2D, Delta (-7264));
   (0xA640, 0xA66D, UpperLower); (0xA680, 0xA69B, UpperLower);
   (0xA722, 0xA72F, UpperLower); (0xA732, 0xA76F, UpperLower);
   (0xA779, 0xA77C, UpperLower); (0xA77E, 0xA787, UpperLower);
   (0xA78C, 0xA78C, Delta (-1)); (0xA790, 0xA793, UpperLower);
   (0xA794, 0xA794, Delta (48)); (0xA796, 0xA7A9, UpperLower);
   (0xA7B4, 0xA7C3, UpperLower); (0xA7C7, 0xA7CA, UpperLower);
   (0xA7D1, 0xA7D1, Delta (-1)); (0xA7D6, 0xA7D9, UpperLower);
   (0xA7F6, 0xA7F6, Delta (-1)); (0xAB53, 0xAB53, Delta (-928));
   (0xAB70, 0xABBF, Delta (-38864)); (0xFF41, 0xFF5A, Delta (-32));
   (0x10428, 0x1044F, Delta (-40)); (0x104D8, 0x104FB, Delta (-40));
   (0x10597, 0x105A1, Delta (-39)); (0x105A3, 0x105B1, Delta (-39));
   (0x105B3, 0x105B9, Delta (-39)); (0x105BB, 0x105BC, Delta (-39));
   (0x10CC0, 0x10CF2, Delta (-64)); (0x118C0, 0x118DF, Delta (-32));
   (0x16E60, 0x16E7F, Delta (-32)); (0x1E922, 0x1E943, Delta (-34))].

(** [unicode.ToUpper]: ASCII directly, otherwise [To(UpperCase, r)] over
    [CaseRanges] (Go searches the sorted ranges by bisection, which finds
    the same range). *)
Definition unicode_ToUpper (r : Z) : Z :=
  if r <=? MaxASCII then (if (97 <=? r) && (r <=? 122) then r - 32 else r)
  else
    match List.find (fun e => let '(lo, hi, _) := e in (lo <=? r) && (r <=? hi))
            CaseRanges_upper with
    | Some (lo, _, UpperLower) => lo + Z.land (r - lo) (Z.lnot 1)
    | Some (_, _, Delta d) => r + d
    | None => r
    end.

(** *** [strings.ToUpper] *)

Definition is_lower_byte (c : ascii) : bool :=
  (97 <=? byte_val c) && (byte_val c <=? 122).

(** The first loop of [strings.ToUpper]: [isASCII] (no byte reaches
    [RuneSelf]) and [hasLower] (some byte in a-z, counted up to the first
    non-ASCII byte). *)
Fixpoint ascii_scan (s : string) (hasLower : bool) : bool * bool :=
  match s with
  | EmptyString => (true, hasLower)
  | String c s' =>
      if RuneSelf <=? byte_val c then (false, hasLower)
      else ascii_scan s' (hasLower || is_lower_byte c)
  end.

(** The byte loop of the ASCII fast path: a-z become A-Z, every other byte
    is kept. *)
Definition ascii_upper (c : ascii) : ascii :=
  let n := nat_of_ascii c in
  if (97 <=? n)%nat && (n <=? 122)%nat then ascii_of_nat (n - 32) else c.

Fixpoint ToUpper_ascii (s : string) : string :=
  match s with
  | EmptyString => EmptyString
  | String c s' => String (ascii_upper c) (ToUpper_ascii s')
  end.

(** [strings.ToUpper]: the ASCII fast path, else
    [Map(unicode.ToUpper, s)]. *)
Definition ToUpper (s : string) : string :=
  let '(isASCII, hasLower) := ascii_scan s false in
  if isASCII then (if hasLower then ToUpper_ascii s else s)
  else Map unicode_ToUpper s.

(** Lower-casing of the ASCII letters of a string. It is not used by the
    program: the claims use it to say that a header cell is a letter-case
    variant of an (ASCII) column name. *)
Definition ascii_lower (c : ascii) : ascii :=
  let n := nat_of_ascii c in
  if (65 <=? n)%nat && (n <=? 90)%nat then ascii_of_nat (n + 32) else c.

Fixpoint LowerASCII (s : string) : string :=
  match s with
  | EmptyString => EmptyString
  | String c s' => String (ascii_lower c) (LowerASCII s')
  end.

(** A string of ASCII bytes only. *)
Definition ascii_only (s : string) : bool :=
  forallb (fun c => (nat_of_ascii c <? 128)%nat) (list_ascii_of_string s).

(** [for i, col := range header { colMap[col] = i }]: a later duplicate
    overwrites an earlier one. *)
Fixpoint build_col_map_from (i : Z) (header : list string) (m : gmap string Z)
  : gmap string Z :=
  match header with
  | [] => m
  | col :: rest => build_col_map_from (i + 1) rest (<[col := i]> m)
  end.

Definition build_col_map (header : list string) : gmap string Z :=
  build_col_map_from 0 header ∅.

(** The validation loop over [requiredCols]: exact key first, else the first
    key of the map whose [ToUpper] is the column; that key's index is stored
    under the column. Go's [range] over a map visits the keys in an
    unspecified order; the model visits them in the order of [map_to_list].
    The order matters only when two header cells have the column as their
    [ToUpper]; the schema-resolution lemmas below use only that the key
    picked has the column as its [ToUpper], which holds in every order. *)
Fixpoint resolve_cols (cols : list string) (colMap : gmap string Z)
  : result (gmap string Z) :=
  match cols with
  | [] => Ok colMap
  | col :: rest =>
      match colMap !! col with
      | Some _ => resolve_cols rest colMap
      | None =>
          match List.find (fun kv => String.eqb (ToUpper kv.1) col)
                  (map_to_list colMap) with
          | Some (_, i) => resolve_cols rest (<[col := i]> colMap)
          | None => Err ("required column not found: " ++ col)
          end
      end
  end.

Definition resolve_header (header : list string) : result (gmap string Z) :=
  resolve_cols required_cols (build_col_map header).

(** ** Record decoding *)

(** [getValueSafely(colName)]. *)
Definition getValueSafely (colMap : gmap string Z) (record : list string)
  (colName : string) : string :=
  match colMap !! colName with
  | None => ""
  | Some idx =>
      if Z.of_nat (length record) <=? idx then ""
      else nth (Z.to_nat idx) record ""
  end.

(** The [BID_TIME] decoding: the millisecond layout, then the seconds
    layout; [time.Parse] returns [Time{}] on failure. *)
Definition parse_bid_time (bidTimeStr : string) : time :=
  if String.eqb bidTimeStr "" then 0
  else match parse_layout_millis bidTimeStr with
       | Some t => t
       | None => match parse_layout_seconds bidTimeStr with
                 | Some t => t
                 | None => 0
                 end
       end.

Definition bid_time (colMap : gmap string Z) (record : list string) : time :=
  parse_bid_time (getValueSafely colMap record "BID_TIME").

Definition bid_price (colMap : gmap string Z) (record : list string) : Z :=
  fst (ParseInt (getValueSafely colMap record "BID_PRICE_MICROS_USD")).

Definition win_cost (colMap : gmap string Z) (record : list string) : Z :=
  fst (ParseInt (getValueSafely colMap record "WIN_COST_MICROS_USD")).

(** ** Aggregation: the body of the record loop *)

(** Time range and hourly breakdown update, for a non-zero [bidTime]. *)
Definition update_time (bidTime : time) (s : BeeswaxLogSummary)
  : BeeswaxLogSummary :=
  if IsZero bidTime then s else
  let '(lo, hi) := TimeRange s in
  let lo' := if Before bidTime lo then bidTime else lo in
  let hi' := if After bidTime hi then bidTime else hi in
  {| TotalRecords := TotalRecords s;
     TotalImpressions := TotalImpressions s;
     TotalClicks := TotalClicks s;
     TotalConversions := TotalConversions s;
     TotalBidAmount := TotalBidAmount s;
     TotalWinCost := TotalWinCost s;
     CTR := CTR s;
     AverageBidPrice := AverageBidPrice s;
     AverageWinRate := AverageWinRate s;
     TimeRange := (lo', hi');
     DeviceBreakdown := DeviceBreakdown s;
     BrowserBreakdown := BrowserBreakdown s;
     OSBreakdown := OSBreakdown s;
     GeoBreakdown := GeoBreakdown s;
     HourlyBreakdown := incr (format_hour_key bidTime) (HourlyBreakdown s);
     DomainBreakdown := DomainBreakdown s;
     CampaignPerformance := CampaignPerformance s |}.

(** [if k != "" { m[k]++ }]. *)
Definition incr_nonempty (k : string) (m : gmap string Z) : gmap string Z :=
  if String.eqb k "" then m else incr k m.

(** The campaign update, for a non-empty [campaignID]. *)
Definition update_campaign (campaignID : string) (clicks conversions : Z)
  (winCost : Z) (m : gmap string CampaignMetrics) : gmap string CampaignMetrics :=
  if String.eqb campaignID "" then m else
  let c := default zero_campaign (m !! campaignID) in
  <[campaignID := {| Impressions := add64 (Impressions c) 1;
                     Clicks := add64 (Clicks c) clicks;
                     Conversions := add64 (Conversions c) conversions;
                     Spend := (Spend c + float_of_Z winCost / fmillion)%float;
                     CampaignCTR := CampaignCTR c |}]> m.

(** The rest of one loop iteration, after the time-range update: numeric
    fields, totals, breakdowns and the campaign entry. *)
Definition process_fields (colMap : gmap string Z) (record : list string)
  (s : BeeswaxLogSummary) : BeeswaxLogSummary :=
  let get := getValueSafely colMap record in
  let bidPrice := fst (ParseInt (get "BID_PRICE_MICROS_USD")) in
  let winCost := fst (ParseInt (get "WIN_COST_MICROS_USD")) in
  let clicks := fst (Atoi (get "CLICKS")) in
  let conversions := fst (Atoi (get "CONVERSIONS")) in
  let campaignID := get "CAMPAIGN_ID" in
  let domain := get "DOMAIN" in
  let country := get "GEO_COUNTRY" in
  let deviceType := get "PLATFORM_DEVICE_TYPE" in
  let browser := get "PLATFORM_BROWSER" in
  let os := get "PLATFORM_OS" in
  {| TotalRecords := add64 (TotalRecords s) 1;
     TotalImpressions := add64 (TotalImpressions s) 1;
     TotalClicks := add64 (TotalClicks s) clicks;
     TotalConversions := add64 (TotalConversions s) conversions;
     TotalBidAmount := (TotalBidAmount s + float_of_Z bidPrice / fmillion)%float;
     TotalWinCost := (TotalWinCost s + float_of_Z winCost / fmillion)%float;
     CTR := CTR s;
     AverageBidPrice := AverageBidPrice s;
     AverageWinRate := AverageWinRate s;
     TimeRange := TimeRange s;
     DeviceBreakdown := incr_nonempty deviceType (DeviceBreakdown s);
     BrowserBreakdown := incr_nonempty browser (BrowserBreakdown s);
     OSBreakdown := incr_nonempty os (OSBreakdown s);
     GeoBreakdown := incr_nonempty country (GeoBreakdown s);
     HourlyBreakdown := HourlyBreakdown s;
     DomainBreakdown := incr_nonempty domain (DomainBreakdown s);
     CampaignPerformance :=
       update_campaign campaignID clicks conversions winCost
         (CampaignPerformance s) |}.

(** One iteration of the loop over data records: parse [BID_TIME] and
    update the time range, then the other fields. *)
Definition process_record (colMap : gmap string Z) (s : BeeswaxLogSummary)
  (record : list string) : BeeswaxLogSummary :=
  process_fields colMap record (update_time (bid_time colMap record) s).

(** ** Initial summary, finalizer and [ParseBeeswaxLog] *)

(** [time.Date(9999, 1, 1, 0, 0, 0, 0, time.UTC)] and
    [time.Date(1970, 1, 1, 0, 0, 0, 0, time.UTC)]. *)
Definition far_future : time := Date 9999 1 1 0 0 0 0.
Definition far_past : time := Date 1970 1 1 0 0 0 0.

Definition initial_summary : BeeswaxLogSummary :=
  {| TotalRecords := 0; TotalImpressions := 0; TotalClicks := 0;
     TotalConversions := 0; TotalBidAmount := fzero; TotalWinCost := fzero;
     CTR := fzero; AverageBidPrice := fzero; AverageWinRate := fzero;
     TimeRange := (far_future, far_past);
     DeviceBreakdown := ∅; BrowserBreakdown := ∅; OSBreakdown := ∅;
     GeoBreakdown := ∅; HourlyBreakdown := ∅; DomainBreakdown := ∅;
     CampaignPerformance := ∅ |}.

(** The loop [for { record, err := csvReader.Read() ... }]. The reader's
    [FieldsPerRecord] is left at 0, so it is fixed by the header to [width]
    and [Read] fails with [ErrFieldCount] on a record of another length; the
    loop then returns the error, a [csv.ParseError] that names the line the
    record starts on. [line] is that line: the records are taken one per
    line of the file, after the header on line 1 (no blank line and no
    quoted line break before them). *)
Fixpoint process_records (colMap : gmap string Z) (width : nat) (line : Z)
  (s : BeeswaxLogSummary) (records : list (list string))
  : result BeeswaxLogSummary :=
  match records with
  | [] => Ok s
  | record :: rest =>
      if Nat.eqb (length record) width
      then process_records colMap width (line + 1) (process_record colMap s record) rest
      else Err ("error reading record: record on line " ++ pad 1 line
                ++ ": wrong number of fields")
  end.

(** Per-campaign CTR, computed by the final [range] over the map. *)
Definition finalize_campaign (c : CampaignMetrics) : CampaignMetrics :=
  if 0 <? Impressions c then
    {| Impressions := Impressions c; Clicks := Clicks c;
       Conversions := Conversions c; Spend := Spend c;
       CampaignCTR :=
         (float_of_Z (Clicks c) / float_of_Z (Impressions c) * fhundred)%float |}
  else c.

(** The derived metrics computed after the loop. *)
Definition finalize (s : BeeswaxLogSummary) : BeeswaxLogSummary :=
  {| TotalRecords := TotalRecords s;
     TotalImpressions := TotalImpressions s;
     TotalClicks := TotalClicks s;
     TotalConversions := TotalConversions s;
     TotalBidAmount := TotalBidAmount s;
     TotalWinCost := TotalWinCost s;
     CTR :=
       if 0 <? TotalImpressions s then
         (float_of_Z (TotalClicks s) / float_of_Z (TotalImpressions s)
          * fhundred)%float
       else CTR s;
     AverageBidPrice :=
       if 0 <? TotalRecords s then
         (TotalBidAmount s / float_of_Z (TotalRecords s))%float
       else AverageBidPrice s;
     AverageWinRate :=
       if 0 <? TotalRecords s then
         (float_of_Z (TotalImpressions s) / float_of_Z (TotalRecords s)
          * fhundred)%float
       else AverageWinRate s;
     TimeRange := TimeRange s;
     DeviceBreakdown := DeviceBreakdown s;
     BrowserBreakdown := BrowserBreakdown s;
     OSBreakdown := OSBreakdown s;
     GeoBreakdown := GeoBreakdown s;
     HourlyBreakdown := HourlyBreakdown s;
     DomainBreakdown := DomainBreakdown s;
     CampaignPerformance := finalize_campaign <$> CampaignPerformance s |}.

(** Everything after schema resolution. *)
Definition parse_body (colMap : gmap string Z) (width : nat)
  (records : list (list string)) : result BeeswaxLogSummary :=
  match process_records colMap width 2 initial_summary records with
  | Ok s => Ok (finalize s)
  | Err e => Err e
  end.

(** [ParseBeeswaxLog] on the records of a CSV stream. *)
Definition ParseBeeswaxLog (records : list (list string))
  : result BeeswaxLogSummary :=
  match records with
  | [] => Err "failed to read header: EOF"
  | header :: rows =>
      match resolve_header header with
      | Err e => Err e
      | Ok colMap => parse_body colMap (length header) rows
      end
  end.

(** ** Sample input: the scenario of the spec's testable properties *)

Definition sample_header : list string := required_cols.

Definition sample_row1 : list string :=
  ["a1"; "x1"; "500000"; "2024-07-01 10:00:00"; "c1"; "450000"; "1"; "0";
   "cr1"; "example.com"; "US"; "NY"; "mobile"; "chrome"; "ios"; "400000"].

Definition sample_row2 : list string :=
  ["a1"; "x2"; "600000"; "2024-07-01 11:00:00"; "c1"; "0"; "0"; "0";
   "cr2"; "other.com"; "US"; "LA"; "desktop"; "firefox"; "windows"; "0"].

Definition sample_input : list (list string) :=
  [sample_header; sample_row1; sample_row2].

(** ** The result store of [LogProcessorService] *)




(** *** [encoding/json] *)



























(** *** [path/filepath] on Unix ([os.PathSeparator] is ['/']) *)












(** *** The file system *)










(** *** [LogProcessorService] *)






(** ** Inputs of the examples *)

(** A data record with a given [BID_PRICE_MICROS_USD] cell. *)
Definition bid_row (bid : string) : list string :=
  ["a1"; "x1"; bid; "2024-07-01 10:00:00"; "c1"; "0"; "0"; "0";
   "cr1"; "example.com"; "US"; "NY"; "mobile"; "chrome"; "ios"; "0"].




(** A data record with a given [BID_TIME] cell. *)
Definition time_row (bidTime : string) : list string :=
  ["a1"; "x1"; "500000"; bidTime; "c1"; "0"; "0"; "0";
   "cr1"; "example.com"; "US"; "NY"; "mobile"; "chrome"; "ios"; "0"].

(** The first data record of the sample without its last cell. *)
Definition short_row : list string := firstn 15 sample_row1.

(** The column map resolved from the sample header. *)
Definition sample_colMap : gmap string Z :=
  match resolve_header sample_header with Ok m => m | Err _ => ∅ end.

(** Three timestamped records and one with an unparseable timestamp. *)
Definition c4_rows : list (list string) :=
  [time_row "2024-07-01 09:15:00"; time_row "garbage";
   time_row "2024-07-01 10:00:00.250"; time_row "2024-07-02 08:30:00"].

(** Every entry of the column map during resolution indexes a header cell
    equal to its key, or whose upper case is its key when that key is its
    own upper case. *)
Definition col_map_inv (header : list string) (m : gmap string Z) : Prop :=
  forall k j, m !! k = Some j ->
  0 <= j < Z.of_nat (length header) /\
  (nth (Z.to_nat j) header "" = k \/
   (ToUpper (nth (Z.to_nat j) header "") = k /\ ToUpper k = k)).

(** ** Auxiliary definitions of the proofs *)

(** The bid amounts in dollars, summed in floating point from left to right
    over the rows. *)
Definition bid_total (colMap : gmap string Z) (rows : list (list string)) : float :=
  fold_left (fun acc r => (acc + float_of_Z (bid_price colMap r) / fmillion)%float)
    rows fzero.

(** A summary with its two time-dependent fields cleared. *)
Definition erase_time (s : BeeswaxLogSummary) : BeeswaxLogSummary :=
  {| TotalRecords := TotalRecords s;
     TotalImpressions := TotalImpressions s;
     TotalClicks := TotalClicks s;
     TotalConversions := TotalConversions s;
     TotalBidAmount := TotalBidAmount s;
     TotalWinCost := TotalWinCost s;
     CTR := CTR s;
     AverageBidPrice := AverageBidPrice s;
     AverageWinRate := AverageWinRate s;
     TimeRange := (0, 0);
     DeviceBreakdown := DeviceBreakdown s;
     BrowserBreakdown := BrowserBreakdown s;
     OSBreakdown := OSBreakdown s;
     GeoBreakdown := GeoBreakdown s;
     HourlyBreakdown := ∅;
     DomainBreakdown := DomainBreakdown s;
     CampaignPerformance := CampaignPerformance s |}.

(** The time-range update of one timestamp, in [min]/[max] form. *)
Definition upd_range (tr : time * time) (t : time) : time * time :=
  if IsZero t then tr else (Z.min t tr.1, Z.max t tr.2).

Definition upd_hourly (h : gmap string Z) (t : time) : gmap string Z :=
  if IsZero t then h else incr (format_hour_key t) h.

(** Every entry has a non-empty key, between 1 and [n] impressions and an
    unset CTR. *)
Definition campaigns_ok (n : Z) (cm : gmap string CampaignMetrics) : Prop :=
  forall id c, cm !! id = Some c ->
  id <> "" /\ 1 <= Impressions c <= n /\ CampaignCTR c = fzero.

(** Weaker invariant, without a bound on the number of rows: the derived
    fields are still unset before the finalizer. *)
Definition derived_unset (s : BeeswaxLogSummary) : Prop :=
  CTR s = fzero /\ AverageBidPrice s = fzero /\ AverageWinRate s = fzero /\
  forall id c, CampaignPerformance s !! id = Some c -> CampaignCTR c = fzero.

(** * Properties *)

(** ** Go integer arithmetic *)

Lemma wrap64_small (z : Z) : - 2 ^ 63 <= z < 2 ^ 63 -> wrap64 z = z.
Proof.
  intros Hz. unfold wrap64.
  rewrite Z.mod_small by lia. lia.
Qed.

Lemma add64_small (a b : Z) : - 2 ^ 63 <= a + b < 2 ^ 63 -> add64 a b = a + b.
Proof. apply wrap64_small. Qed.

(** ** The loop and the shape of a successful parse *)

Lemma process_records_ok (colMap : gmap string Z) (width : nat) :
  forall (rows : list (list string)) (line : Z) (s s' : BeeswaxLogSummary),
  process_records colMap width line s rows = Ok s' ->
  Forall (fun r => length r = width) rows /\
  s' = fold_left (process_record colMap) rows s.
Proof.
  induction rows as [|r rows IH]; simpl; intros line s s' H.
  - injection H as <-. split; [constructor | reflexivity].
  - destruct (Nat.eqb_spec (length r) width) as [Hw|Hw]; [|discriminate].
    destruct (IH _ _ _ H) as [Hall Hs]. split; [constructor; assumption|exact Hs].
Qed.

Lemma parse_ok_inv (header : list string) (rows : list (list string))
  (s : BeeswaxLogSummary) :
  ParseBeeswaxLog (header :: rows) = Ok s ->
  exists colMap, resolve_header header = Ok colMap /\
    Forall (fun r => length r = length header) rows /\
    s = finalize (fold_left (process_record colMap) rows initial_summary).
Proof.
  simpl. destruct (resolve_header header) as [colMap|e]; [|discriminate].
  unfold parse_body.
  destruct (process_records colMap (length header) 2 initial_summary rows)
    as [s0|e] eqn:E; [|discriminate].
  intros H. injection H as <-.
  destruct (process_records_ok _ _ _ _ _ _ E) as [Hall ->].
  exists colMap. auto.
Qed.

(** ** The time update touches only the time range and the hourly
    breakdown *)

Lemma erase_update_time (t : time) (s : BeeswaxLogSummary) :
  erase_time (update_time t s) = erase_time s.
Proof.
  unfold update_time. destruct (IsZero t); [reflexivity|].
  destruct (TimeRange s); reflexivity.
Qed.

Lemma update_time_proj {A : Type} (f : BeeswaxLogSummary -> A) (t : time)
  (s : BeeswaxLogSummary) :
  (forall x, f (erase_time x) = f x) -> f (update_time t s) = f s.
Proof.
  intros Hf. rewrite <- (Hf (update_time t s)), <- (Hf s).
  now rewrite erase_update_time.
Qed.

Lemma erase_process_fields (colMap : gmap string Z) (record : list string)
  (s : BeeswaxLogSummary) :
  erase_time (process_fields colMap record (erase_time s)) =
  erase_time (process_fields colMap record s).
Proof. reflexivity. Qed.

Lemma update_time_TimeRange (t : time) (s : BeeswaxLogSummary) :
  TimeRange (update_time t s) = upd_range (TimeRange s) t.
Proof.
  unfold update_time, upd_range. destruct (IsZero t); [reflexivity|].
  destruct (TimeRange s) as [lo hi]; simpl.
  unfold Before, After.
  destruct (Z.ltb_spec t lo), (Z.ltb_spec hi t); f_equal; lia.
Qed.

Lemma update_time_Hourly (t : time) (s : BeeswaxLogSummary) :
  HourlyBreakdown (update_time t s) = upd_hourly (HourlyBreakdown s) t.
Proof.
  unfold update_time, upd_hourly. destruct (IsZero t); [reflexivity|].
  destruct (TimeRange s); reflexivity.
Qed.

Lemma process_record_TimeRange (colMap : gmap string Z) (s : BeeswaxLogSummary)
  (r : list string) :
  TimeRange (process_record colMap s r) =
  upd_range (TimeRange s) (bid_time colMap r).
Proof. apply update_time_TimeRange. Qed.

Lemma process_record_Hourly (colMap : gmap string Z) (s : BeeswaxLogSummary)
  (r : list string) :
  HourlyBreakdown (process_record colMap s r) =
  upd_hourly (HourlyBreakdown s) (bid_time colMap r).
Proof. apply update_time_Hourly. Qed.

Lemma process_record_TotalRecords (colMap : gmap string Z)
  (s : BeeswaxLogSummary) (r : list string) :
  TotalRecords (process_record colMap s r) = add64 (TotalRecords s) 1.
Proof.
  unfold process_record, process_fields; cbn [TotalRecords].
  f_equal. now apply update_time_proj.
Qed.

Lemma process_record_TotalImpressions (colMap : gmap string Z)
  (s : BeeswaxLogSummary) (r : list string) :
  TotalImpressions (process_record colMap s r) = add64 (TotalImpressions s) 1.
Proof.
  unfold process_record, process_fields; cbn [TotalImpressions].
  f_equal. now apply update_time_proj.
Qed.

Lemma process_record_TotalBidAmount (colMap : gmap string Z)
  (s : BeeswaxLogSummary) (r : list string) :
  TotalBidAmount (process_record colMap s r) =
  (TotalBidAmount s + float_of_Z (bid_price colMap r) / fmillion)%float.
Proof.
  unfold process_record, process_fields; cbn [TotalBidAmount].
  f_equal. now apply update_time_proj.
Qed.

Lemma process_record_derived (colMap : gmap string Z) (s : BeeswaxLogSummary)
  (r : list string) :
  CTR (process_record colMap s r) = CTR s /\
  AverageBidPrice (process_record colMap s r) = AverageBidPrice s /\
  AverageWinRate (process_record colMap s r) = AverageWinRate s.
Proof.
  unfold process_record, process_fields; cbn [CTR AverageBidPrice AverageWinRate].
  repeat split; now apply update_time_proj.
Qed.

Lemma process_record_campaigns (colMap : gmap string Z) (s : BeeswaxLogSummary)
  (r : list string) :
  CampaignPerformance (process_record colMap s r) =
  update_campaign (getValueSafely colMap r "CAMPAIGN_ID")
    (fst (Atoi (getValueSafely colMap r "CLICKS")))
    (fst (Atoi (getValueSafely colMap r "CONVERSIONS")))
    (win_cost colMap r) (CampaignPerformance s).
Proof.
  unfold process_record, process_fields; cbn [CampaignPerformance].
  f_equal. now apply update_time_proj.
Qed.

(** ** Counters *)

Lemma fold_TotalRecords (colMap : gmap string Z) :
  forall (rows : list (list string)) (s : BeeswaxLogSummary),
  0 <= TotalRecords s -> TotalRecords s + Z.of_nat (length rows) < 2 ^ 63 ->
  TotalRecords (fold_left (process_record colMap) rows s) =
  TotalRecords s + Z.of_nat (length rows).
Proof.
  induction rows as [|r rows IH]; simpl; intros s H0 H1; [lia|].
  rewrite IH; rewrite process_record_TotalRecords, add64_small; lia.
Qed.

Lemma fold_TotalImpressions (colMap : gmap string Z) :
  forall (rows : list (list string)) (s : BeeswaxLogSummary),
  0 <= TotalImpressions s ->
  TotalImpressions s + Z.of_nat (length rows) < 2 ^ 63 ->
  TotalImpressions (fold_left (process_record colMap) rows s) =
  TotalImpressions s + Z.of_nat (length rows).
Proof.
  induction rows as [|r rows IH]; simpl; intros s H0 H1; [lia|].
  rewrite IH; rewrite process_record_TotalImpressions, add64_small; lia.
Qed.

(** ** Campaign entries *)

Lemma update_campaign_ok (n : Z) (id : string) (cl cv wc : Z)
  (cm : gmap string CampaignMetrics) :
  0 <= n -> n + 1 < 2 ^ 63 -> campaigns_ok n cm ->
  campaigns_ok (n + 1) (update_campaign id cl cv wc cm).
Proof.
  intros Hn Hb Hok. unfold update_campaign.
  destruct (String.eqb id "") eqn:Hid.
  - intros id' c Hl. destruct (Hok _ _ Hl) as (? & ? & ?).
    repeat split; auto; lia.
  - assert (Hne : id <> "") by (intros ->; discriminate).
    intros id' c. rewrite lookup_insert_Some.
    intros [[<- <-]|[_ Hl]].
    + cbn [Impressions CampaignCTR].
      destruct (cm !! id) as [c0|] eqn:E; simpl.
      * destruct (Hok _ _ E) as (_ & Hi & Hc).
        rewrite add64_small by lia. repeat split; [exact Hne|lia|lia|exact Hc].
      * rewrite add64_small by lia. repeat split; try exact Hne; lia.
    + destruct (Hok _ _ Hl) as (? & ? & ?). repeat split; auto; lia.
Qed.

Lemma fold_campaigns_ok (colMap : gmap string Z) :
  forall (rows : list (list string)) (s : BeeswaxLogSummary),
  0 <= TotalRecords s -> TotalRecords s + Z.of_nat (length rows) < 2 ^ 63 ->
  campaigns_ok (TotalRecords s) (CampaignPerformance s) ->
  campaigns_ok (TotalRecords s + Z.of_nat (length rows))
    (CampaignPerformance (fold_left (process_record colMap) rows s)).
Proof.
  induction rows as [|r rows IH]; simpl; intros s H0 H1 Hok.
  - now rewrite Z.add_0_r.
  - replace (TotalRecords s + Z.of_nat (S (length rows)))
      with (TotalRecords (process_record colMap s r) + Z.of_nat (length rows))
      by (rewrite process_record_TotalRecords, add64_small; lia).
    apply IH; rewrite ?process_record_TotalRecords, ?add64_small by lia; try lia.
    rewrite process_record_campaigns. apply update_campaign_ok; auto; lia.
Qed.

Lemma fold_derived_unset (colMap : gmap string Z) :
  forall (rows : list (list string)) (s : BeeswaxLogSummary),
  derived_unset s -> derived_unset (fold_left (process_record colMap) rows s).
Proof.
  induction rows as [|r rows IH]; simpl; intros s Hs; [exact Hs|].
  apply IH. destruct Hs as (H1 & H2 & H3 & H4).
  destruct (process_record_derived colMap s r) as (E1 & E2 & E3).
  unfold derived_unset. rewrite E1, E2, E3. repeat split; auto.
  rewrite process_record_campaigns. intros id c. unfold update_campaign.
  destruct (String.eqb _ "") eqn:Hid; [apply H4|].
  rewrite lookup_insert_Some. intros [[_ <-]|[_ Hl]]; [|exact (H4 _ _ Hl)].
  cbn [CampaignCTR]. destruct (CampaignPerformance s !! _) as [c0|] eqn:E;
    [exact (H4 _ _ E)|reflexivity].
Qed.

Lemma initial_derived_unset : derived_unset initial_summary.
Proof.
  repeat split. intros id c H. cbn [initial_summary CampaignPerformance] in H.
  rewrite lookup_empty in H. discriminate.
Qed.

Lemma fold_TotalBidAmount (colMap : gmap string Z) :
  forall (rows : list (list string)) (s : BeeswaxLogSummary),
  TotalBidAmount (fold_left (process_record colMap) rows s) =
  fold_left (fun acc r => (acc + float_of_Z (bid_price colMap r) / fmillion)%float)
    rows (TotalBidAmount s).
Proof.
  induction rows as [|r rows IH]; simpl; intros s; [reflexivity|].
  rewrite IH, process_record_TotalBidAmount. reflexivity.
Qed.

(** ** Time range and hourly breakdown over a permutation of the rows *)

Lemma fold_left_perm {A B : Type} (f : A -> B -> A) :
  (forall a x y, f (f a x) y = f (f a y) x) ->
  forall l l', Permutation l l' -> forall a, fold_left f l a = fold_left f l' a.
Proof.
  intros Hf l l' Hp. induction Hp as [|x l l' Hp IH|x y l|l l' l'' H1 IH1 H2 IH2];
    intros a; simpl.
  - reflexivity.
  - apply IH.
  - now rewrite Hf.
  - now rewrite IH1, IH2.
Qed.

Lemma upd_range_comm (tr : time * time) (t u : time) :
  upd_range (upd_range tr t) u = upd_range (upd_range tr u) t.
Proof.
  destruct tr as [lo hi]. unfold upd_range.
  destruct (IsZero t), (IsZero u); simpl; try reflexivity.
  f_equal; lia.
Qed.

Lemma incr_comm (k1 k2 : string) (m : gmap string Z) :
  incr k1 (incr k2 m) = incr k2 (incr k1 m).
Proof.
  destruct (decide (k1 = k2)) as [->|Hne]; [reflexivity|].
  unfold incr. rewrite (lookup_insert_ne m k2 k1) by congruence.
  rewrite (lookup_insert_ne m k1 k2) by congruence.
  apply insert_insert_ne. exact Hne.
Qed.

Lemma upd_hourly_comm (h : gmap string Z) (t u : time) :
  upd_hourly (upd_hourly h t) u = upd_hourly (upd_hourly h u) t.
Proof.
  unfold upd_hourly. destruct (IsZero t), (IsZero u); try reflexivity.
  apply incr_comm.
Qed.

Lemma fold_TimeRange (colMap : gmap string Z) :
  forall (rows : list (list string)) (s : BeeswaxLogSummary),
  TimeRange (fold_left (process_record colMap) rows s) =
  fold_left upd_range (map (bid_time colMap) rows) (TimeRange s).
Proof.
  induction rows as [|r rows IH]; simpl; intros s; [reflexivity|].
  now rewrite IH, process_record_TimeRange.
Qed.

Lemma fold_Hourly (colMap : gmap string Z) :
  forall (rows : list (list string)) (s : BeeswaxLogSummary),
  HourlyBreakdown (fold_left (process_record colMap) rows s) =
  fold_left upd_hourly (map (bid_time colMap) rows) (HourlyBreakdown s).
Proof.
  induction rows as [|r rows IH]; simpl; intros s; [reflexivity|].
  now rewrite IH, process_record_Hourly.
Qed.

Lemma parse_bid_time_failed (c : string) :
  (c = "" \/ (parse_layout_millis c = None /\ parse_layout_seconds c = None)) ->
  parse_bid_time c = 0.
Proof.
  unfold parse_bid_time. intros [->|[H1 H2]]; [reflexivity|].
  rewrite H1, H2. now destruct (String.eqb c "").
Qed.

(** ** Schema resolution *)

Lemma ascii_upper_lower (c : ascii) : ascii_upper (ascii_lower c) = ascii_upper c.
Proof. destruct c as [[] [] [] [] [] [] [] []]; reflexivity. Qed.

Lemma ToUpper_ascii_LowerASCII (s : string) :
  ToUpper_ascii (LowerASCII s) = ToUpper_ascii s.
Proof. induction s as [|c s IH]; simpl; [reflexivity|]. now rewrite ascii_upper_lower, IH. Qed.

Lemma ascii_lower_ascii (c : ascii) :
  (nat_of_ascii (ascii_lower c) <? 128)%nat = (nat_of_ascii c <? 128)%nat.
Proof. destruct c as [[] [] [] [] [] [] [] []]; reflexivity. Qed.

(** A letter-case variant of an ASCII string is ASCII. *)
Lemma LowerASCII_ascii_only (h col : string) :
  LowerASCII h = LowerASCII col -> ascii_only col = true -> ascii_only h = true.
Proof.
  revert col. induction h as [|c h IH]; intros [|c' col]; simpl;
    try discriminate; [reflexivity|].
  intros Heq. injection Heq as Hc Hs. unfold ascii_only in *. simpl.
  rewrite !andb_true_iff. intros [H1 H2]. split.
  - rewrite <- ascii_lower_ascii, Hc, ascii_lower_ascii. exact H1.
  - exact (IH _ Hs H2).
Qed.

Lemma ascii_byte_small (c : ascii) :
  (nat_of_ascii c <? 128)%nat = true -> (RuneSelf <=? byte_val c) = false.
Proof. destruct c as [[] [] [] [] [] [] [] []]; vm_compute; congruence. Qed.

Lemma ascii_upper_not_lower (c : ascii) :
  is_lower_byte c = false -> ascii_upper c = c.
Proof. destruct c as [[] [] [] [] [] [] [] []]; vm_compute; congruence. Qed.

Lemma ascii_scan_ascii (s : string) (b : bool) :
  ascii_only s = true ->
  ascii_scan s b = (true, b || existsb is_lower_byte (list_ascii_of_string s)).
Proof.
  revert b. induction s as [|c s IH]; intros b; simpl.
  - now rewrite orb_false_r.
  - unfold ascii_only. simpl. rewrite andb_true_iff. intros [Hc Hs].
    rewrite (ascii_byte_small _ Hc). rewrite (IH _ Hs). now rewrite orb_assoc.
Qed.

Lemma ToUpper_ascii_no_lower (s : string) :
  existsb is_lower_byte (list_ascii_of_string s) = false -> ToUpper_ascii s = s.
Proof.
  induction s as [|c s IH]; simpl; [reflexivity|].
  rewrite orb_false_iff. intros [Hc Hs].
  now rewrite (ascii_upper_not_lower _ Hc), (IH Hs).
Qed.

(** On an ASCII string [strings.ToUpper] takes its fast path. *)
Lemma ToUpper_ascii_only (s : string) :
  ascii_only s = true -> ToUpper s = ToUpper_ascii s.
Proof.
  intros Hs. unfold ToUpper. rewrite (ascii_scan_ascii _ _ Hs). simpl.
  destruct (existsb is_lower_byte (list_ascii_of_string s)) eqn:E;
    [reflexivity|].
  symmetry. now apply ToUpper_ascii_no_lower.
Qed.

Lemma required_cols_upper :
  Forall (fun col => ToUpper col = col /\ ascii_only col = true /\
                     ToUpper_ascii col = col) required_cols.
Proof. repeat constructor. Qed.

(** A header cell that is a letter-case variant of a required column is
    upper-cased to it. *)
Lemma ToUpper_case_variant (h col : string) :
  In col required_cols -> LowerASCII h = LowerASCII col -> ToUpper h = col.
Proof.
  intros Hc Hl.
  destruct (proj1 (List.Forall_forall _ _) required_cols_upper col Hc)
    as (_ & Ha & Hu).
  rewrite (ToUpper_ascii_only _ (LowerASCII_ascii_only _ _ Hl Ha)).
  rewrite <- ToUpper_ascii_LowerASCII, Hl, ToUpper_ascii_LowerASCII. exact Hu.
Qed.

(** The column map of a header: every entry is the index of a cell equal to
    its key. *)
Lemma build_col_map_from_spec (hs pre : list string) (m : gmap string Z) :
  (forall k j, m !! k = Some j ->
     0 <= j < Z.of_nat (length pre) /\ nth (Z.to_nat j) pre "" = k) ->
  forall k j, build_col_map_from (Z.of_nat (length pre)) hs m !! k = Some j ->
  0 <= j < Z.of_nat (length (pre ++ hs)) /\ nth (Z.to_nat j) (pre ++ hs) "" = k.
Proof.
  revert pre m. induction hs as [|h hs IH]; intros pre m Hm k j; simpl.
  - rewrite app_nil_r. apply Hm.
  - replace (Z.of_nat (length pre) + 1) with (Z.of_nat (length (pre ++ [h])))
      by (rewrite length_app; simpl; lia).
    replace (pre ++ h :: hs) with ((pre ++ [h]) ++ hs)
      by (rewrite <- app_assoc; reflexivity).
    apply IH. intros k' j'. rewrite lookup_insert_Some.
    rewrite length_app; simpl.
    intros [[<- <-]|[_ Hl]].
    + rewrite Nat2Z.id, app_nth2, Nat.sub_diag by lia. split; [lia|reflexivity].
    + destruct (Hm _ _ Hl) as [Hr Hn]. rewrite app_nth1 by lia.
      split; [lia|exact Hn].
Qed.

Lemma build_col_map_from_dom (hs : list string) :
  forall (i : Z) (m : gmap string Z) (h : string),
  In h hs \/ is_Some (m !! h) -> is_Some (build_col_map_from i hs m !! h).
Proof.
  induction hs as [|h' hs IH]; simpl; intros i m h Hh.
  - destruct Hh as [[]|Hh]; exact Hh.
  - apply IH. destruct Hh as [[<-|Hh]|Hh]; [right|left; exact Hh|right].
    + rewrite lookup_insert_is_Some'. now left.
    + rewrite lookup_insert_is_Some'. now right.
Qed.

Lemma build_col_map_spec (header : list string) (k : string) (j : Z) :
  build_col_map header !! k = Some j ->
  0 <= j < Z.of_nat (length header) /\ nth (Z.to_nat j) header "" = k.
Proof.
  apply (build_col_map_from_spec header []).
  intros k' j' H. rewrite lookup_empty in H. discriminate.
Qed.

Lemma build_col_map_dom (header : list string) (h : string) :
  In h header -> is_Some (build_col_map header !! h).
Proof. intros Hh. apply build_col_map_from_dom. now left. Qed.

Lemma find_key_Some (m : gmap string Z) (col k : string) (i : Z) :
  List.find (fun kv => String.eqb (ToUpper kv.1) col) (map_to_list m) = Some (k, i) ->
  m !! k = Some i /\ ToUpper k = col.
Proof.
  intros Hf. apply find_some in Hf as [Hin Heq]. simpl in Heq.
  split; [apply elem_of_map_to_list, list_elem_of_In, Hin|].
  now apply String.eqb_eq.
Qed.

Lemma find_key_None (m : gmap string Z) (col k : string) (j : Z) :
  List.find (fun kv => String.eqb (ToUpper kv.1) col) (map_to_list m) = None ->
  m !! k = Some j -> ToUpper k <> col.
Proof.
  intros Hf Hk Heq.
  assert (Hin : In (k, j) (map_to_list m))
    by (apply list_elem_of_In, elem_of_map_to_list, Hk).
  pose proof (find_none _ _ Hf (k, j) Hin) as Hn. simpl in Hn.
  rewrite Heq, String.eqb_refl in Hn. discriminate.
Qed.

Lemma resolve_cols_Ok (header : list string) :
  forall (cols : list string) (m m' : gmap string Z),
  Forall (fun col => ToUpper col = col) cols ->
  resolve_cols cols m = Ok m' -> col_map_inv header m ->
  m ⊆ m' /\ col_map_inv header m' /\ (forall col, In col cols -> is_Some (m' !! col)).
Proof.
  induction cols as [|col cols IH]; simpl; intros m m' Hup Hr Hinv;
    [|apply Forall_cons_iff in Hup as [Hcol Hup]].
  - injection Hr as <-. split; [reflexivity|]. split; [exact Hinv|]. intros _ [].
  - destruct (m !! col) as [j|] eqn:Hm.
    + destruct (IH _ _ Hup Hr Hinv) as (Hsub & Hinv' & Hdom).
      split; [exact Hsub|]. split; [exact Hinv'|].
      intros c [<-|Hc]; [|now apply Hdom].
      exists j. eapply lookup_weaken; eassumption.
    + destruct (List.find _ _) as [[k i]|] eqn:Hf; [|discriminate].
      destruct (find_key_Some _ _ _ _ Hf) as [Hk Hku].
      assert (Hinv1 : col_map_inv header (<[col:=i]> m)).
      { intros k' j'. rewrite lookup_insert_Some.
        intros [[<- <-]|[_ Hl]]; [|exact (Hinv _ _ Hl)].
        destruct (Hinv _ _ Hk) as [Hb [Hn|[Hn Hkk]]]; split; try exact Hb;
          right; split; try exact Hcol.
        - rewrite Hn. exact Hku.
        - rewrite Hn, <- Hku. symmetry. exact Hkk. }
      destruct (IH _ _ Hup Hr Hinv1) as (Hsub & Hinv' & Hdom).
      split; [etransitivity; [apply insert_subseteq, Hm|exact Hsub]|].
      split; [exact Hinv'|].
      intros c [<-|Hc]; [|now apply Hdom].
      exists i. eapply lookup_weaken; [apply lookup_insert_eq|exact Hsub].
Qed.

Lemma resolve_cols_succeeds (header : list string) :
  forall (cols : list string) (m : gmap string Z),
  build_col_map header ⊆ m ->
  (forall col, In col cols -> exists h, In h header /\ ToUpper h = col) ->
  exists m', resolve_cols cols m = Ok m'.
Proof.
  induction cols as [|col cols IH]; simpl; intros m Hsub Hcols; [eauto|].
  destruct (m !! col) as [j|] eqn:Hm; [apply IH; auto|].
  destruct (List.find _ _) as [[k i]|] eqn:Hf.
  - apply IH; [|auto].
    etransitivity; [exact Hsub|]. apply insert_subseteq, Hm.
  - exfalso. destruct (Hcols col (or_introl eq_refl)) as (h & Hh & Hu).
    destruct (build_col_map_dom header h Hh) as [j Hj].
    exact (find_key_None _ _ _ _ Hf (lookup_weaken _ _ _ _ Hj Hsub) Hu).
Qed.

Lemma resolve_cols_Err (cols : list string) :
  forall (m : gmap string Z) (e : string),
  resolve_cols cols m = Err e ->
  exists col m0, In col cols /\ e = ("required column not found: " ++ col)%string /\
    m ⊆ m0 /\ m0 !! col = None /\
    (forall k j, m0 !! k = Some j -> ToUpper k <> col).
Proof.
  induction cols as [|col cols IH]; simpl; intros m e Hr; [discriminate|].
  destruct (m !! col) as [j|] eqn:Hm.
  - destruct (IH _ _ Hr) as (c & m0 & Hc & He & Hsub & H0 & Hk).
    exists c, m0. auto 6.
  - destruct (List.find _ _) as [[k i]|] eqn:Hf.
    + destruct (IH _ _ Hr) as (c & m0 & Hc & He & Hsub & H0 & Hk).
      exists c, m0. repeat split; auto.
      etransitivity; [apply insert_subseteq, Hm|exact Hsub].
    + injection Hr as <-. exists col, m. repeat split; auto.
      intros k j Hkj. exact (find_key_None _ _ _ _ Hf Hkj).
Qed.

(** ** Paths *)























(** ** UTF-8 coercion *)







(** ** The result store *)










(** ** Claim theorems: counts, derived metrics, campaign entries, bid total *)

(** C6: on every input that parses (a header followed by data records, below
    2^63 of them), total records and total impressions both equal the number
    of data records, the header excluded. *)
Theorem C6_records_impressions_count (header : list string)
  (rows : list (list string)) (s : BeeswaxLogSummary) :
  Z.of_nat (length rows) < 2 ^ 63 ->
  ParseBeeswaxLog (header :: rows) = Ok s ->
  TotalRecords s = Z.of_nat (length rows) /\
  TotalImpressions s = Z.of_nat (length rows).
Proof.
  intros Hlen Hp. destruct (parse_ok_inv _ _ _ Hp) as (colMap & _ & _ & ->).
  cbn [finalize TotalRecords TotalImpressions].
  rewrite fold_TotalRecords, fold_TotalImpressions; cbn; lia.
Qed.

Lemma C6_witness :
  match ParseBeeswaxLog sample_input with
  | Ok s => TotalRecords s = 2 /\ TotalImpressions s = 2
  | Err _ => False
  end.
Proof.
  destruct (ParseBeeswaxLog sample_input) as [s|e] eqn:E.
  - exact (C6_records_impressions_count sample_header
             [sample_row1; sample_row2] s ltac:(vm_compute; reflexivity) E).
  - vm_compute in E. discriminate.
Defined.

(** C7: the finalizer sets the average bid price to total bid amount over
    total records (0 without records), the global CTR to total clicks over
    total impressions times 100 (0 without impressions), and every campaign's
    CTR to its clicks over its impressions times 100 (0 without
    impressions); with no data row every derived metric is 0 and the
    campaign map is empty. *)
Theorem C7_finalizer_metrics (header : list string) (rows : list (list string))
  (s : BeeswaxLogSummary) :
  ParseBeeswaxLog (header :: rows) = Ok s ->
  AverageBidPrice s =
    (if 0 <? TotalRecords s
     then (TotalBidAmount s / float_of_Z (TotalRecords s))%float else fzero) /\
  CTR s =
    (if 0 <? TotalImpressions s
     then (float_of_Z (TotalClicks s) / float_of_Z (TotalImpressions s)
           * fhundred)%float
     else fzero) /\
  (forall id c, CampaignPerformance s !! id = Some c ->
     CampaignCTR c =
       (if 0 <? Impressions c
        then (float_of_Z (Clicks c) / float_of_Z (Impressions c) * fhundred)%float
        else fzero)) /\
  (rows = [] ->
     AverageBidPrice s = fzero /\ CTR s = fzero /\ AverageWinRate s = fzero /\
     CampaignPerformance s = ∅).
Proof.
  intros Hp. destruct (parse_ok_inv _ _ _ Hp) as (colMap & _ & _ & ->).
  pose proof (fold_derived_unset colMap rows _ initial_derived_unset)
    as (H1 & H2 & H3 & H4).
  set (s0 := fold_left (process_record colMap) rows initial_summary) in *.
  cbn [finalize AverageBidPrice CTR AverageWinRate CampaignPerformance
       TotalRecords TotalImpressions TotalClicks TotalBidAmount].
  rewrite H1, H2. split; [reflexivity|]. split; [reflexivity|]. split.
  - intros id c Hc. apply lookup_fmap_Some in Hc as (c0 & <- & Hc0).
    unfold finalize_campaign. destruct (0 <? Impressions c0) eqn:Ei;
      cbn [Impressions Clicks CampaignCTR]; rewrite Ei;
      [reflexivity|exact (H4 _ _ Hc0)].
  - intros ->. unfold s0. cbn [fold_left].
    split; [reflexivity|]. split; [reflexivity|]. split; [reflexivity|].
    apply fmap_empty.
Qed.

Lemma C7_witness :
  match ParseBeeswaxLog sample_input with
  | Ok s =>
      AverageBidPrice s =
        (if 0 <? TotalRecords s
         then (TotalBidAmount s / float_of_Z (TotalRecords s))%float else fzero)
  | Err _ => False
  end.
Proof.
  destruct (ParseBeeswaxLog sample_input) as [s|e] eqn:E.
  - exact (proj1 (C7_finalizer_metrics sample_header
                    [sample_row1; sample_row2] s E)).
  - vm_compute in E. discriminate.
Defined.

(** C10: on every input that parses (below 2^63 data records), every entry
    of the campaign map has a non-empty campaign id and at least one
    impression, so the finalizer's guard holds and its CTR is clicks over
    impressions times 100. *)
Theorem C10_campaign_entries (header : list string) (rows : list (list string))
  (s : BeeswaxLogSummary) :
  Z.of_nat (length rows) < 2 ^ 63 ->
  ParseBeeswaxLog (header :: rows) = Ok s ->
  forall id c, CampaignPerformance s !! id = Some c ->
  id <> "" /\ 1 <= Impressions c /\
  CampaignCTR c =
    (float_of_Z (Clicks c) / float_of_Z (Impressions c) * fhundred)%float.
Proof.
  intros Hlen Hp id c Hc.
  destruct (parse_ok_inv _ _ _ Hp) as (colMap & _ & _ & ->).
  cbn [finalize CampaignPerformance] in Hc.
  apply lookup_fmap_Some in Hc as (c0 & <- & Hc0).
  assert (Hok : campaigns_ok (0 + Z.of_nat (length rows))
    (CampaignPerformance (fold_left (process_record colMap) rows initial_summary))).
  { apply (fold_campaigns_ok colMap rows initial_summary); cbn; try lia.
    intros id' c' H'. rewrite lookup_empty in H'. discriminate. }
  destruct (Hok _ _ Hc0) as (Hid & Hi & _).
  unfold finalize_campaign.
  destruct (Z.ltb_spec 0 (Impressions c0)); [|lia].
  cbn. repeat split; [exact Hid|lia].
Qed.

Lemma C10_witness :
  match ParseBeeswaxLog sample_input with
  | Ok s => forall id c, CampaignPerformance s !! id = Some c ->
      id <> "" /\ 1 <= Impressions c /\
      CampaignCTR c =
        (float_of_Z (Clicks c) / float_of_Z (Impressions c) * fhundred)%float
  | Err _ => False
  end.
Proof.
  destruct (ParseBeeswaxLog sample_input) as [s|e] eqn:E.
  - exact (C10_campaign_entries sample_header [sample_row1; sample_row2] s
             ltac:(vm_compute; reflexivity) E).
  - vm_compute in E. discriminate.
Defined.

(** Counterexample to C8: three bids of 0.1, 0.2 and 0.3 dollars give a
    total bid amount of 0.6000000000000001 in this order and
    0.6 in the reverse order. *)
Lemma C8_order_dependence :
  match ParseBeeswaxLog [sample_header; bid_row "100000"; bid_row "200000"; bid_row "300000"],
        ParseBeeswaxLog [sample_header; bid_row "300000"; bid_row "200000"; bid_row "100000"] with
  | Ok s, Ok s' =>
      Permutation [bid_row "100000"; bid_row "200000"; bid_row "300000"]
                  [bid_row "300000"; bid_row "200000"; bid_row "100000"] /\
      TotalBidAmount s <> TotalBidAmount s'
  | _, _ => False
  end.
Proof.
  vm_compute. split.
  - apply (Permutation_rev [bid_row "100000"; bid_row "200000"; bid_row "300000"]).
  - intros H. apply (f_equal Prim2SF) in H. vm_compute in H. discriminate.
Qed.

(** C8 (amended): on every input that parses, the total bid amount is the
    floating-point sum of the bid prices over a million, accumulated from left
    to right in the order of the data records. *)
Theorem C8_bid_total_fold (header : list string) (rows : list (list string))
  (s : BeeswaxLogSummary) :
  ParseBeeswaxLog (header :: rows) = Ok s ->
  exists colMap, resolve_header header = Ok colMap /\
    TotalBidAmount s = bid_total colMap rows.
Proof.
  intros Hp. destruct (parse_ok_inv _ _ _ Hp) as (colMap & Hc & _ & ->).
  exists colMap. split; [exact Hc|].
  cbn [finalize TotalBidAmount]. rewrite fold_TotalBidAmount. reflexivity.
Qed.

Lemma C8_witness :
  match ParseBeeswaxLog sample_input with
  | Ok s => exists colMap, resolve_header sample_header = Ok colMap /\
      TotalBidAmount s = bid_total colMap [sample_row1; sample_row2]
  | Err _ => False
  end.
Proof.
  destruct (ParseBeeswaxLog sample_input) as [s|e] eqn:E.
  - exact (C8_bid_total_fold sample_header [sample_row1; sample_row2] s E).
  - vm_compute in E. discriminate.
Defined.

(** ** The result store *)




(** ** Rejected records, clamped amounts and the time-range sentinel *)

(** C1 (failing input): a data record one cell short of the header is not
    decoded with an empty last cell: the CSV reader fixes the record length
    to the header's, so the parse fails on that record. *)
Theorem C1_short_row_rejected :
  length short_row = 15%nat /\ length sample_header = 16%nat /\
  ParseBeeswaxLog [sample_header; short_row] =
    Err "error reading record: record on line 2: wrong number of fields".
Proof. vm_compute. repeat split. Qed.

(** C3 (failing input): a [BID_PRICE_MICROS_USD] cell that is twenty digits
    followed by a letter is not a base-10 integer, yet [ParseInt] returns its
    range-error value [MaxInt64] (the overflow is seen before the letter),
    which the loop keeps, so the row adds a non-zero amount to the total bid
    amount. *)
Theorem C3_overflow_bid_counted :
  ParseInt "99999999999999999999x" = (9223372036854775807, Some ErrRange) /\
  match ParseBeeswaxLog [sample_header; bid_row "99999999999999999999x"] with
  | Ok s => TotalRecords s = 1 /\ TotalImpressions s = 1 /\
      TotalBidAmount s = (float_of_Z 9223372036854775807 / fmillion)%float /\
      TotalBidAmount s <> fzero
  | Err _ => False
  end.
Proof.
  vm_compute. repeat split.
  intros H. apply (f_equal Prim2SF) in H. vm_compute in H. discriminate.
Qed.

(** C5 (failing input): with a single row timestamped
    1969-12-31 23:59:59, the minimum is set to that time but the maximum
    stays at the 1970-01-01 sentinel, which is later than every timestamp
    of the input. *)
Theorem C5_pre_epoch_max :
  match ParseBeeswaxLog [sample_header; time_row "1969-12-31 23:59:59"] with
  | Ok s => TimeRange s = (Date 1969 12 31 23 59 59 0, far_past) /\
      Date 1969 12 31 23 59 59 0 < far_past
  | Err _ => False
  end.
Proof. vm_compute. split; reflexivity. Qed.

(** ** Time range and hourly breakdown *)

(** Counterexample to C4: the timestamp 0001-01-01 00:00:00 parses under the
    second layout, yet it is Go's zero [Time], which the loop takes for a
    failed parse; so with it as the earliest of three timestamps the time
    range starts at the second one. *)
Lemma C4_zero_time_excluded :
  parse_layout_seconds "0001-01-01 00:00:00" = Some (Date 1 1 1 0 0 0 0) /\
  Date 1 1 1 0 0 0 0 < Date 2024 7 1 9 15 0 0 /\
  match ParseBeeswaxLog
          [sample_header; time_row "0001-01-01 00:00:00";
           time_row "2024-07-01 09:15:00"; time_row "2024-07-02 08:30:00";
           time_row "garbage"] with
  | Ok s => TimeRange s = (Date 2024 7 1 9 15 0 0, Date 2024 7 2 8 30 0 0) /\
      TimeRange s <> (Date 1 1 1 0 0 0 0, Date 2024 7 2 8 30 0 0)
  | Err _ => False
  end.
Proof.
  split; [vm_compute; reflexivity|]. split; [apply Z.ltb_lt; vm_compute; reflexivity|].
  vm_compute. split; [reflexivity|]. discriminate.
Qed.

(** C4 (amended): a row whose [BID_TIME] cell is empty or fails both
    layouts leaves the time range and the hourly breakdown unchanged, and
    every row updates the other fields as if it had no timestamp; for rows
    with timestamps T1 < T2 < T3, none of them Go's zero time
    0001-01-01 00:00:00, with T3 not before the far-past sentinel 1970-01-01
    and T1 not after the far-future sentinel 9999-01-01, and one row with an
    empty or unparseable timestamp, in any order, the time range is [T1, T3]
    and the hourly breakdown holds exactly the hour buckets of T1, T2 and
    T3. *)
Theorem C4_time_window (header : list string) (colMap : gmap string Z)
  (rows : list (list string)) (s : BeeswaxLogSummary)
  (r1 r2 r3 u : list string) (T1 T2 T3 : time) :
  resolve_header header = Ok colMap ->
  ParseBeeswaxLog (header :: rows) = Ok s ->
  Permutation rows [r1; r2; r3; u] ->
  bid_time colMap r1 = T1 -> bid_time colMap r2 = T2 ->
  bid_time colMap r3 = T3 ->
  T1 <> 0 -> T2 <> 0 -> T3 <> 0 -> T1 < T2 -> T2 < T3 ->
  far_past <= T3 -> T1 <= far_future ->
  (getValueSafely colMap u "BID_TIME" = "" \/
   (parse_layout_millis (getValueSafely colMap u "BID_TIME") = None /\
    parse_layout_seconds (getValueSafely colMap u "BID_TIME") = None)) ->
  (forall (s0 : BeeswaxLogSummary) (r : list string),
     (getValueSafely colMap r "BID_TIME" = "" \/
      (parse_layout_millis (getValueSafely colMap r "BID_TIME") = None /\
       parse_layout_seconds (getValueSafely colMap r "BID_TIME") = None)) ->
     TimeRange (process_record colMap s0 r) = TimeRange s0 /\
     HourlyBreakdown (process_record colMap s0 r) = HourlyBreakdown s0) /\
  (forall (s0 : BeeswaxLogSummary) (r : list string),
     erase_time (process_record colMap s0 r) =
     erase_time (process_fields colMap r s0)) /\
  TimeRange s = (T1, T3) /\
  HourlyBreakdown s =
    incr (format_hour_key T3) (incr (format_hour_key T2)
      (incr (format_hour_key T1) ∅)).
Proof.
  intros Hc Hp Hperm E1 E2 E3 Z1 Z2 Z3 H12 H23 H3 H1 Hu.
  assert (Hf : forall r, (getValueSafely colMap r "BID_TIME" = "" \/
      (parse_layout_millis (getValueSafely colMap r "BID_TIME") = None /\
       parse_layout_seconds (getValueSafely colMap r "BID_TIME") = None)) ->
      bid_time colMap r = 0) by (intros r Hr; now apply parse_bid_time_failed).
  split; [|split].
  - intros s0 r Hr. rewrite process_record_TimeRange, process_record_Hourly, Hf
      by exact Hr. split; reflexivity.
  - intros s0 r. unfold process_record.
    rewrite <- erase_process_fields, erase_update_time.
    apply erase_process_fields.
  - destruct (parse_ok_inv _ _ _ Hp) as (colMap' & Hc' & _ & ->).
    rewrite Hc in Hc'. injection Hc' as <-.
    cbn [finalize TimeRange HourlyBreakdown].
    rewrite fold_TimeRange, fold_Hourly.
    rewrite (fold_left_perm _ upd_range_comm _ _ (Permutation_map _ Hperm)).
    rewrite (fold_left_perm _ upd_hourly_comm _ _ (Permutation_map _ Hperm)).
    cbn [map fold_left initial_summary TimeRange HourlyBreakdown].
    rewrite E1, E2, E3, (Hf u Hu).
    assert (far_past = 62135596800 * ns_per_sec) as Efp by reflexivity.
    assert (far_future = 315506361600 * ns_per_sec) as Eff by reflexivity.
    unfold upd_range, upd_hourly, IsZero. cbn [fst snd].
    unfold ns_per_sec in *.
    destruct (Z.eqb_spec T1 0); [lia|]. destruct (Z.eqb_spec T2 0); [lia|].
    destruct (Z.eqb_spec T3 0); [lia|]. cbn [fst snd].
    split; [f_equal; lia | reflexivity].
Qed.

Lemma C4_witness :
  match ParseBeeswaxLog (sample_header :: c4_rows) with
  | Ok s => TimeRange s = (Date 2024 7 1 9 15 0 0, Date 2024 7 2 8 30 0 0)
  | Err _ => False
  end.
Proof.
  destruct (ParseBeeswaxLog (sample_header :: c4_rows)) as [s|e] eqn:E.
  - exact (proj1 (proj2 (proj2
      (C4_time_window sample_header sample_colMap c4_rows s
         (time_row "2024-07-01 09:15:00") (time_row "2024-07-01 10:00:00.250")
         (time_row "2024-07-02 08:30:00") (time_row "garbage")
         (Date 2024 7 1 9 15 0 0) (Date 2024 7 1 10 0 0 250000000)
         (Date 2024 7 2 8 30 0 0)
         ltac:(vm_compute; reflexivity) E
         (perm_skip _ (Permutation_cons_append _ _))
         ltac:(vm_compute; reflexivity) ltac:(vm_compute; reflexivity)
         ltac:(vm_compute; reflexivity)
         ltac:(vm_compute; discriminate) ltac:(vm_compute; discriminate)
         ltac:(vm_compute; discriminate)
         ltac:(apply Z.ltb_lt; vm_compute; reflexivity)
         ltac:(apply Z.ltb_lt; vm_compute; reflexivity)
         ltac:(apply Z.leb_le; vm_compute; reflexivity)
         ltac:(apply Z.leb_le; vm_compute; reflexivity)
         ltac:(right; split; vm_compute; reflexivity))))).
  - vm_compute in E. discriminate.
Defined.

(** ** Schema resolution *)

(** C2: if every required column has a header cell equal to it up to
    ASCII letter case, or whose [strings.ToUpper] is it, schema resolution
    succeeds, the parse continues with the resolved map on whatever data
    records follow, and each required column is mapped to the index of a
    cell equal to it (when there is one) or whose upper case is it; if some
    required column matches no cell exactly nor after [strings.ToUpper], the
    parse fails, whatever the data records, with an error naming a required
    column that matches no cell. *)
Theorem C2_schema_resolution (header : list string) :
  ((forall col, In col required_cols ->
      exists h, In h header /\
        (LowerASCII h = LowerASCII col \/ ToUpper h = col)) ->
   exists colMap, resolve_header header = Ok colMap /\
     (forall rows, ParseBeeswaxLog (header :: rows) =
                   parse_body colMap (length header) rows) /\
     (forall col, In col required_cols -> exists i,
        colMap !! col = Some i /\ 0 <= i < Z.of_nat (length header) /\
        ToUpper (nth (Z.to_nat i) header "") = col /\
        (In col header -> nth (Z.to_nat i) header "" = col))) /\
  ((exists col, In col required_cols /\
      forall h, In h header -> h <> col /\ ToUpper h <> col) ->
   exists col, In col required_cols /\
     (forall h, In h header -> h <> col /\ ToUpper h <> col) /\
     forall rows, ParseBeeswaxLog (header :: rows) =
                  Err ("required column not found: " ++ col)).
Proof.
  assert (Hinv0 : col_map_inv header (build_col_map header)).
  { intros k j Hk. destruct (build_col_map_spec _ _ _ Hk). auto. }
  pose proof (proj1 (List.Forall_forall _ _) required_cols_upper) as Hup.
  assert (Hup' : Forall (fun col => ToUpper col = col) required_cols).
  { apply List.Forall_forall. intros col Hc. exact (proj1 (Hup _ Hc)). }
  split.
  - intros Hcols.
    assert (Hcols' : forall col, In col required_cols ->
              exists h, In h header /\ ToUpper h = col).
    { intros col Hc. destruct (Hcols col Hc) as (h & Hh & [Hl|Hl]);
        exists h; split; try exact Hh; [|exact Hl].
      exact (ToUpper_case_variant _ _ Hc Hl). }
    destruct (resolve_cols_succeeds header required_cols (build_col_map header)
                ltac:(reflexivity) Hcols') as [m' Hm'].
    destruct (resolve_cols_Ok header _ _ _ Hup' Hm' Hinv0)
      as (Hsub & Hinv & Hdom).
    exists m'. split; [exact Hm'|]. split.
    + intros rows. unfold ParseBeeswaxLog, resolve_header. now rewrite Hm'.
    + intros col Hc. destruct (Hdom col Hc) as [i Hi]. exists i.
      destruct (Hinv _ _ Hi) as [Hb Hn]. split; [exact Hi|]. split; [exact Hb|].
      split.
      * destruct Hn as [Hn|[Hn _]]; [rewrite Hn; exact (proj1 (Hup _ Hc))|exact Hn].
      * intros Hh. destruct (build_col_map_dom _ _ Hh) as [j Hj].
        pose proof (lookup_weaken _ _ _ _ Hj Hsub) as Hj'.
        rewrite Hi in Hj'. injection Hj' as ->.
        exact (proj2 (build_col_map_spec _ _ _ Hj)).
  - intros (col & Hc & Hmiss).
    destruct (resolve_header header) as [m'|e] eqn:Hr.
    + exfalso.
      destruct (resolve_cols_Ok header _ _ _ Hup' Hr Hinv0) as (_ & Hinv & Hdom).
      destruct (Hdom col Hc) as [i Hi]. destruct (Hinv _ _ Hi) as [Hb Hn].
      assert (Hin : In (nth (Z.to_nat i) header "") header)
        by (apply nth_In; lia).
      destruct (Hmiss _ Hin) as [H1 H2]. destruct Hn as [Hn|[Hn _]]; contradiction.
    + destruct (resolve_cols_Err _ _ _ Hr) as (c & m0 & Hc' & -> & Hsub & H0 & Hk).
      exists c. split; [exact Hc'|]. split.
      * intros h Hh. destruct (build_col_map_dom _ _ Hh) as [j Hj].
        pose proof (lookup_weaken _ _ _ _ Hj Hsub) as Hj'.
        split; [intros ->; congruence|exact (Hk _ _ Hj')].
      * intros rows. unfold ParseBeeswaxLog. now rewrite Hr.
Qed.

Lemma C2_witness :
  (exists colMap, resolve_header (map LowerASCII required_cols) = Ok colMap) /\
  (exists col, ParseBeeswaxLog [tl required_cols] =
               Err ("required column not found: " ++ col)).
Proof.
  split.
  - destruct (proj1 (C2_schema_resolution (map LowerASCII required_cols)))
      as (m & Hm & _).
    + intros col Hc. exists (LowerASCII col). split; [now apply in_map|].
      left. simpl in Hc.
      repeat (destruct Hc as [<-|Hc]; [reflexivity|]). destruct Hc.
    + exists m. exact Hm.
  - destruct (proj2 (C2_schema_resolution (tl required_cols)))
      as (col & _ & _ & H).
    + exists "ACCOUNT_ID". split; [left; reflexivity|].
      intros h Hh. simpl in Hh.
      repeat (destruct Hh as [<-|Hh];
              [split; intros H; vm_compute in H; discriminate|]).
      destruct Hh.
    + exists col. apply H.
Defined.
